(** * j2x: writing JSON key/value metadata as extended attributes

    A shallow embedding of [src/helpers/j2x.py].  Python [str] values are
    lists of Unicode code points, byte strings are lists of integers in
    [0, 255], the attribute store of the target file is an association list
    from attribute-name bytes to attribute-value bytes, and the Python
    functions that touch the store run in a small state-and-exception monad.
    Diagnostic printing (verbosity, [print], [time.sleep]) has no effect on
    the store or on results and is left out. *)

From Stdlib Require Import ZArith List String Ascii Bool Lia.
Import ListNotations.
Open Scope Z_scope.

(* ------------------------------------------------------------------ *)
(** ** Python strings and their UTF-8 encoding *)

Module PyStr.

(** A Python [str]: a sequence of code points in [0, 0x10FFFF]
    (lone surrogates included, as Python and [json.load] allow them). *)
Definition pystr := list Z.

(** A Python [bytes] value. *)
Definition bytes := list Z.

(** ASCII literals, for writing concrete strings. *)
Definition lit (s : string) : pystr :=
  map (fun a => Z.of_nat (nat_of_ascii a)) (list_ascii_of_string s).

(** [str.isspace] for one code point: the characters [str.strip()]
    removes (Python's [Py_UNICODE_ISSPACE]). *)
Definition py_isspace (c : Z) : bool :=
  ((9 <=? c) && (c <=? 13)) || ((28 <=? c) && (c <=? 31)) || (c =? 32)
  || (c =? 133) || (c =? 160) || (c =? 5760)
  || ((8192 <=? c) && (c <=? 8202)) || (c =? 8232) || (c =? 8233)
  || (c =? 8239) || (c =? 8287) || (c =? 12288).

Fixpoint lstrip (s : pystr) : pystr :=
  match s with
  | c :: r => if py_isspace c then lstrip r else s
  | [] => []
  end.

(** [str.strip()] *)
Definition py_strip (s : pystr) : pystr := rev (lstrip (rev (lstrip s))).

(** UTF-8 encoding of one code point; [None] for a surrogate, which the
    strict [str.encode()] refuses. *)
Definition utf8_encode_char (c : Z) : option bytes :=
  if c <? 0 then None
  else if c <? 128 then Some [c]
  else if c <? 2048 then
    Some [Z.lor 192 (Z.shiftr c 6); Z.lor 128 (Z.land c 63)]
  else if (55296 <=? c) && (c <=? 57343) then None
  else if c <? 65536 then
    Some [Z.lor 224 (Z.shiftr c 12); Z.lor 128 (Z.land (Z.shiftr c 6) 63);
          Z.lor 128 (Z.land c 63)]
  else if c <=? 1114111 then
    Some [Z.lor 240 (Z.shiftr c 18); Z.lor 128 (Z.land (Z.shiftr c 12) 63);
          Z.lor 128 (Z.land (Z.shiftr c 6) 63); Z.lor 128 (Z.land c 63)]
  else None.

(** [s.encode()] (UTF-8, errors="strict"). *)
Fixpoint utf8_encode (s : pystr) : option bytes :=
  match s with
  | [] => Some []
  | c :: r =>
      match utf8_encode_char c, utf8_encode r with
      | Some b, Some br => Some (b ++ br)
      | _, _ => None
      end
  end.

Definition is_cont (b : Z) : bool := (128 <=? b) && (b <=? 191).

(** One step of strict UTF-8 decoding: the first code point and the rest,
    or [None] when the bytes at the head are not well-formed UTF-8. *)
Definition utf8_decode_step (bs : bytes) : option (Z * bytes) :=
  match bs with
  | [] => None
  | b0 :: r =>
      if b0 <? 128 then Some (b0, r)
      else if (194 <=? b0) && (b0 <=? 223) then
        match r with
        | b1 :: r' =>
            if is_cont b1
            then Some (Z.lor (Z.shiftl (Z.land b0 31) 6) (Z.land b1 63), r')
            else None
        | _ => None
        end
      else if (224 <=? b0) && (b0 <=? 239) then
        match r with
        | b1 :: b2 :: r' =>
            if is_cont b1 && is_cont b2 then
              let cp := Z.lor (Z.shiftl (Z.land b0 15) 12)
                          (Z.lor (Z.shiftl (Z.land b1 63) 6) (Z.land b2 63)) in
              if (cp <? 2048) || ((55296 <=? cp) && (cp <=? 57343)) then None
              else Some (cp, r')
            else None
        | _ => None
        end
      else if (240 <=? b0) && (b0 <=? 244) then
        match r with
        | b1 :: b2 :: b3 :: r' =>
            if is_cont b1 && is_cont b2 && is_cont b3 then
              let cp := Z.lor (Z.shiftl (Z.land b0 7) 18)
                          (Z.lor (Z.shiftl (Z.land b1 63) 12)
                             (Z.lor (Z.shiftl (Z.land b2 63) 6) (Z.land b3 63))) in
              if (cp <? 65536) || (1114111 <? cp) then None else Some (cp, r')
            else None
        | _ => None
        end
      else None
  end.

Fixpoint decode_fuel (fuel : nat) (bs : bytes) : option pystr :=
  match fuel with
  | O => Some []
  | S f =>
      match bs with
      | [] => Some []
      | _ =>
          match utf8_decode_step bs with
          | Some (c, r) =>
              match decode_fuel f r with
              | Some s => Some (c :: s)
              | None => None
              end
          | None => None
          end
      end
  end.

(** [b.decode()] (UTF-8, errors="strict"). *)
Definition utf8_decode (bs : bytes) : option pystr := decode_fuel (List.length bs) bs.

Fixpoint fsdecode_fuel (fuel : nat) (bs : bytes) : pystr :=
  match fuel with
  | O => []
  | S f =>
      match bs with
      | [] => []
      | b :: r =>
          match utf8_decode_step bs with
          | Some (c, r') => c :: fsdecode_fuel f r'
          | None => (56320 + b) :: fsdecode_fuel f r
          end
      end
  end.

(** [os.fsdecode]: UTF-8 with errors="surrogateescape", how
    [os.listxattr] turns attribute names into [str]. *)
Definition fsdecode (bs : bytes) : pystr := fsdecode_fuel (List.length bs) bs.

(** [os.fsencode]: the inverse direction, used when a [str] name is
    passed back to [os.getxattr]. *)
Fixpoint fsencode (s : pystr) : option bytes :=
  match s with
  | [] => Some []
  | c :: r =>
      let b := if (56448 <=? c) && (c <=? 56575) then Some [c - 56320]
               else utf8_encode_char c in
      match b, fsencode r with
      | Some b, Some br => Some (b ++ br)
      | _, _ => None
      end
  end.

End PyStr.

(* ------------------------------------------------------------------ *)
(** ** JSON values as [json.load] returns them, and [str()] on them *)

Module PyJson.
Import PyStr.

(** The Python value [json.load] builds: [None], [bool], [int], [str],
    [list], [dict] (its items in insertion order).  JSON numbers are
    modelled as integers; floats are out of this model. *)
#[local] Set Warnings "-register-all".
Inductive json : Type :=
| JNull
| JBool (b : bool)
| JInt (z : Z)
| JStr (s : pystr)
| JArr (l : list json)
| JObj (l : list (pystr * json)).

(** Python truthiness, [bool(v)]. *)
Definition py_truthy (v : json) : bool :=
  match v with
  | JNull => false
  | JBool b => b
  | JInt z => negb (z =? 0)
  | JStr s => negb (List.length s =? 0)%nat
  | JArr l => negb (List.length l =? 0)%nat
  | JObj l => negb (List.length l =? 0)%nat
  end.

Fixpoint digits_fuel (fuel : nat) (n : Z) (acc : pystr) : pystr :=
  match fuel with
  | O => acc
  | S f =>
      let acc' := (48 + n mod 10) :: acc in
      if n <? 10 then acc' else digits_fuel f (n / 10) acc'
  end.

(** [str(z)] for an [int]: decimal, with a leading [-] when negative. *)
Definition int_str (z : Z) : pystr :=
  let n := Z.abs z in
  let ds := digits_fuel (S (Z.to_nat (Z.log2 n))) n [] in
  if z <? 0 then 45 :: ds else ds.

Definition hex_digit (d : Z) : Z := if d <? 10 then 48 + d else 87 + d.

Fixpoint hex_fixed (width : nat) (n : Z) (acc : pystr) : pystr :=
  match width with
  | O => acc
  | S w => hex_fixed w (Z.shiftr n 4) (hex_digit (Z.land n 15) :: acc)
  end.

Fixpoint join (sep : pystr) (l : list pystr) : pystr :=
  match l with
  | [] => []
  | [x] => x
  | x :: r => x ++ sep ++ join sep r
  end.

Section Repr.

(** [Py_UNICODE_ISPRINTABLE] for non-ASCII code points: a table of the
    Python runtime's Unicode database, left abstract. *)
Variable py_isprintable : Z -> bool.

(** How [repr] writes one code point inside quotes [q]. *)
Definition repr_char (q c : Z) : pystr :=
  if (c =? q) || (c =? 92) then [92; c]
  else if c =? 9 then lit "\t"
  else if c =? 10 then lit "\n"
  else if c =? 13 then lit "\r"
  else if (c <? 32) || (c =? 127) then 92 :: 120 :: hex_fixed 2 c []
  else if c <? 127 then [c]
  else if py_isprintable c then [c]
  else if c <=? 255 then 92 :: 120 :: hex_fixed 2 c []
  else if c <=? 65535 then 92 :: 117 :: hex_fixed 4 c []
  else 92 :: 85 :: hex_fixed 8 c [].

(** [repr(s)] for a [str]: single quotes, unless the string holds a single
    quote and no double quote. *)
Definition repr_str (s : pystr) : pystr :=
  let q := if existsb (Z.eqb 39) s && negb (existsb (Z.eqb 34) s) then 34 else 39 in
  q :: List.concat (map (repr_char q) s) ++ [q].

(** [repr(v)], as [str] of a container shows its elements. *)
Fixpoint py_repr (v : json) : pystr :=
  match v with
  | JNull => lit "None"
  | JBool true => lit "True"
  | JBool false => lit "False"
  | JInt z => int_str z
  | JStr s => repr_str s
  | JArr l => 91 :: join (lit ", ") (map py_repr l) ++ [93]
  | JObj l =>
      123 :: join (lit ", ") (map (fun '(k, x) => repr_str k ++ lit ": " ++ py_repr x) l)
          ++ [125]
  end.

(** [str(v)]: the string itself for a [str], [repr] otherwise. *)
Definition py_str (v : json) : pystr :=
  match v with
  | JStr s => s
  | _ => py_repr v
  end.

End Repr.

End PyJson.

(* ------------------------------------------------------------------ *)
(** ** The attribute store and a state-and-exception monad *)

Module Xattr.
Import PyStr PyJson.

(** The [errno] values [os.setxattr] and friends may fail with, other than
    [EEXIST] (which Python raises as [FileExistsError]). *)
Inductive errno : Type :=
| ERANGE | E2BIG | ENOSPC | EDQUOT | EPERM | EACCES | EROFS | ENOTSUP | ENOENT | ENODATA.

(** The exceptions the modelled code can raise. *)
Inductive exn : Type :=
| FileExistsError
| OSError (e : errno)
| UnicodeEncodeError
| UnicodeDecodeError
| UnboundLocalError
| AttributeError
| ValueError.

(** The extended attributes of the target: name bytes to value bytes, in
    the order [os.listxattr] lists them. *)
Definition store := list (bytes * bytes).

Inductive outcome (A : Type) : Type :=
| Ok (a : A)
| Raise (e : exn).
Arguments Ok {A} a.
Arguments Raise {A} e.

(** A Python statement sequence: threads the store, may raise. *)
Definition M (A : Type) := store -> store * outcome A.

Definition ret {A} (a : A) : M A := fun st => (st, Ok a).
Definition raise {A} (e : exn) : M A := fun st => (st, Raise e).
Definition bind {A B} (m : M A) (k : A -> M B) : M B :=
  fun st => match m st with
            | (st', Ok a) => k a st'
            | (st', Raise e) => (st', Raise e)
            end.
(** [try: m except e: h e] *)
Definition try_except {A} (m : M A) (h : exn -> M A) : M A :=
  fun st => match m st with
            | (st', Ok a) => (st', Ok a)
            | (st', Raise e) => h e st'
            end.

Notation "x <- m ;; k" := (bind m (fun x => k))
  (at level 61, m at next level, right associativity).

(** Lift a partial Python conversion: [None] raises [e]. *)
Definition of_option {A} (e : exn) (o : option A) : M A :=
  match o with Some a => ret a | None => raise e end.

Fixpoint mapM {A B} (f : A -> M B) (l : list A) : M (list B) :=
  match l with
  | [] => ret []
  | x :: r => y <- f x ;; ys <- mapM f r ;; ret (y :: ys)
  end.

Definition bytes_eqb (a b : bytes) : bool :=
  if list_eq_dec Z.eq_dec a b then true else false.

Definition has_name (st : store) (name : bytes) : bool :=
  existsb (fun p => bytes_eqb (fst p) name) st.

Fixpoint lookup (name : bytes) (st : store) : option bytes :=
  match st with
  | [] => None
  | (n, v) :: r => if bytes_eqb n name then Some v else lookup name r
  end.

(** The refusals of the operating system's attribute primitives.
    [setxattr(2)] first checks the call itself and the file, whatever
    attributes it holds: name length ([ERANGE]), value size over 64 KiB
    ([E2BIG]), read-only file system ([EROFS]), immutable or append-only
    file ([EPERM]), no write permission ([EACCES]); [setxattr_refuses]
    reports these.  Only then does the file system look the name up, and
    with [os.XATTR_CREATE] a name already present fails with [EEXIST]
    (create-only, never overwriting).  A new name may still be refused by
    the file system (no space, quota, no xattr support), which
    [setxattr_fails] reports.  [getxattr(2)] checks read permission on the
    file and the name's namespace ([EACCES], [EPERM]) before it looks the
    name up; [getxattr_refuses] reports these. *)
Record os_store : Type := {
  setxattr_refuses : bytes -> bytes -> option errno;
  setxattr_fails : store -> bytes -> bytes -> option errno;
  getxattr_refuses : bytes -> option errno
}.

(** [os.setxattr(target, name, value, os.XATTR_CREATE)] *)
Definition setxattr_create (os : os_store) (name value : bytes) : M unit :=
  fun st =>
    match setxattr_refuses os name value with
    | Some e => (st, Raise (OSError e))
    | None =>
        if has_name st name then (st, Raise FileExistsError)
        else match setxattr_fails os st name value with
             | Some e => (st, Raise (OSError e))
             | None => (st ++ [(name, value)], Ok tt)
             end
    end.

(** [os.listxattr(target)]: the names, decoded to [str]. *)
Definition listxattr : M (list pystr) := fun st => (st, Ok (map (fun p => fsdecode (fst p)) st)).

(** [os.getxattr(target, name)] for a [str] name. *)
Definition getxattr (os : os_store) (name : pystr) : M bytes :=
  fun st => match fsencode name with
            | None => (st, Raise UnicodeEncodeError)
            | Some nb =>
                match getxattr_refuses os nb with
                | Some e => (st, Raise (OSError e))
                | None => match lookup nb st with
                          | Some v => (st, Ok v)
                          | None => (st, Raise (OSError ENODATA))
                          end
                end
            end.

End Xattr.

(* ------------------------------------------------------------------ *)
(** ** [j2x.py]: normalisation, the per-pair write and the writers *)

Module J2x.
Import PyStr PyJson Xattr.

(** The global [args] the functions read (the fields they use). *)
Record args : Type := {
  archive : bool;
  lower_key : bool;
  lower_value : bool;
  empty_values : bool
}.

(** The byte counts dict [{"keys": .., "values": ..}]. *)
Record tally : Type := { keys : nat; values : nat }.

Definition zero_tally : tally := {| keys := 0; values := 0 |}.

Definition add_tally (t w : tally) : tally :=
  {| keys := (keys t + keys w)%nat; values := (values t + values w)%nat |}.

Section Program.

(** [str.lower()], a table of the Python runtime, left abstract. *)
Variable py_lower : pystr -> pystr.
Variable py_isprintable : Z -> bool.
Variable os : os_store.
Variable cfg : args.

Definition str_ (v : json) : pystr := py_str py_isprintable v.

(** [clean_key]: JSON keys are [str], so [str(key)] is [key]. *)
Definition clean_key (key : pystr) : pystr :=
  let out := py_strip key in
  if negb (archive cfg) && lower_key cfg then py_lower out else out.

(** [clean_value] *)
Definition clean_value (value : json) : pystr :=
  let out := py_strip (str_ value) in
  if negb (archive cfg) && lower_value cfg then py_lower out else out.

(** The [if archive: ... else: ...] block of [write_xattr]: [strkey] is a
    [str]; [strval] is the raw value in archive mode and a [str]
    otherwise. *)
Definition normalize_key (archive_ : bool) (key : pystr) : pystr :=
  if archive_ then key else clean_key key.

Definition normalize_value (archive_ : bool) (value : json) : json :=
  if archive_ then value else JStr (clean_value value).

(** [write_xattr(target, key, value, prefix, archive)] *)
Definition write_xattr (prefix : pystr) (archive_ : bool) (key : pystr) (value : json)
  : M tally :=
  let written := zero_tally in
  let strkey := normalize_key archive_ key in
  let strval := normalize_value archive_ value in
  (* Skip empty values (unless allowed). *)
  if negb (py_truthy strval) && negb (empty_values cfg) then ret written else
  (* strval = str(strval).encode(); strkey = (prefix + strkey).encode() *)
  vb <- of_option UnicodeEncodeError (utf8_encode (str_ strval)) ;;
  kb <- of_option UnicodeEncodeError (utf8_encode (prefix ++ strkey)) ;;
  try_except
    (_ <- setxattr_create os kb vb ;;
     ret {| keys := (keys written + List.length kb)%nat;
            values := (values written + List.length vb)%nat |})
    (fun e => match e with
              | FileExistsError => ret written
              | e => raise e   (* print("ouch."); raise (e) *)
              end).

(** The [for key, value in data.items()] loop of [write_xattrs_dict]:
    [total] and the last [written] (unbound before the first pass). *)
Fixpoint dict_loop (prefix : pystr) (archive_ : bool) (items : list (pystr * json))
  (total : tally) (written : option tally) : M (tally * option tally) :=
  match items with
  | [] => ret (total, written)
  | (key, value) :: rest =>
      (* except Exception as e: print(..); time.sleep(1); raise (e) *)
      w <- write_xattr prefix archive_ key value ;;
      dict_loop prefix archive_ rest (add_tally total w) (Some w)
  end.

(** [write_xattrs_dict]: returns [written], the last pair's dict. *)
Definition write_xattrs_dict (prefix : pystr) (archive_ : bool) (items : list (pystr * json))
  : M tally :=
  r <- dict_loop prefix archive_ items zero_tally None ;;
  match snd r with
  | Some written => ret written
  | None => raise UnboundLocalError
  end.

(** [write_xattrs_list]: [data.items()] on a [list] raises
    [AttributeError] before the loop body runs. *)
Definition write_xattrs_list (prefix : pystr) (archive_ : bool) (data : list json) : M tally :=
  raise AttributeError.

(** [write_xattrs] *)
Definition write_xattrs (prefix : pystr) (archive_ : bool) (data : json) : M tally :=
  match data with
  | JObj items => write_xattrs_dict prefix archive_ items
  | JArr l => write_xattrs_list prefix archive_ l
  | _ => raise ValueError
  end.

End Program.

(** [read_xattrs] *)
Definition read_xattrs : M (list pystr) := listxattr.

(** [get_xattrs_size]: [len("".join(xattrs + values))], a count of code
    points, with each value decoded by the strict [bytes.decode()]. *)
Definition get_xattrs_size (os : os_store) : M nat :=
  xattrs <- read_xattrs ;;
  values <- mapM (fun x => b <- getxattr os x ;; of_option UnicodeDecodeError (utf8_decode b)) xattrs ;;
  ret (List.length (List.concat (xattrs ++ values))).

(** Total byte length of a list of byte strings. *)
Definition byte_sum (l : list bytes) : nat := list_sum (map (@List.length Z) l).

(** Every attribute name of [s1] is also on [s2]. *)
Definition incl_names (s1 s2 : store) : Prop :=
  forall n, has_name s1 n = true -> has_name s2 n = true.

End J2x.

(* ------------------------------------------------------------------ *)
(** ** A concrete runtime, for evaluating the program on inputs *)

Module Runtime.
Import PyStr PyJson Xattr J2x.

(** [str.lower()] on ASCII letters (other code points unchanged). *)
Definition ascii_lower (s : pystr) : pystr :=
  map (fun c => if (65 <=? c) && (c <=? 90) then c + 32 else c) s.

(** Printability: every non-ASCII code point above U+00A0 counts as
    printable. *)
Definition some_printable (c : Z) : bool := 160 <? c.

(** A store that never refuses a create-only write of a new name. *)
Definition ideal_store : os_store :=
  {| setxattr_refuses := fun _ _ => None;
     setxattr_fails := fun _ _ _ => None;
     getxattr_refuses := fun _ => None |}.


(** The command-line defaults: no [-a], [-lk], [-lv], [-ev]. *)
Definition default_args : args :=
  {| archive := false; lower_key := false; lower_value := false; empty_values := false |}.

End Runtime.

(* ------------------------------------------------------------------ *)
(** ** The rest of [j2x.py]: [convert_bytes], [clear_xattrs], [main] *)

Module J2xMain.
Import PyStr PyJson Xattr J2x.

(** Python's [int] half-even rounding of [n / d] ([d > 0]). *)
Definition round_half_even (n d : Z) : Z :=
  let k := n / d in
  let r := n mod d in
  if 2 * r <? d then k
  else if d <? 2 * r then k + 1
  else if Z.even k then k else k + 1.

(** ["%3.1f" % x] for [x = p / q], [q > 0]: the exact value correctly
    rounded to one decimal, ties to even; ["d.d"] is already three
    characters wide, so the width never pads. *)
Definition fmt_3_1f (p q : Z) : pystr :=
  let k := round_half_even (10 * Z.abs p) q in
  (if p <? 0 then [45] else []) ++ int_str (k / 10) ++ [46; 48 + k mod 10].

(** [float(n)] for an [int] [n], as [PyLong_AsDouble] computes it: [n]
    rounded to 53 significant bits, ties to even (the rounded value of an
    [int] is again an integer); [None] is its [OverflowError] ("int too
    large to convert to float") when the rounded magnitude reaches
    [2^1024]. *)
Definition int_to_float (n : Z) : option Z :=
  let a := Z.abs n in
  let r := if a <? 2 ^ 53 then a
           else let s := Z.log2 a - 52 in round_half_even a (2 ^ s) * 2 ^ s in
  if r <? 2 ^ 1024 then Some (if n <? 0 then - r else r) else None.

(** The loop from its second pass on, where [num] is the [float]
    [p / q], [q] a power of [1024]: dividing a [float] of at least [1024]
    by [1024.0] is exact. *)
Fixpoint convert_loop (units : list pystr) (p q : Z) : option pystr :=
  match units with
  | [] => None
  | x :: rest =>
      if p <? 1024 * q then Some (fmt_3_1f p q ++ [32] ++ x)
      else convert_loop rest p (q * 1024)
  end.

(** How [convert_bytes] ends: it returns a [str] or [None], or raises
    [OverflowError]. *)
Inductive convert_outcome : Type :=
| Returned (r : option pystr)
| OverflowError.

(** [convert_bytes(num)] for an [int] [num] with the default
    [step_unit=1024.0], the one both callers use.  The first pass compares
    the [int] exactly ([num < 1024.0]); then either ["%3.1f" % num] or
    [num /= 1024.0] converts it to [float], which may raise.  [None] is
    the value of falling off the end of the loop. *)
Definition convert_bytes (num : Z) : convert_outcome :=
  match int_to_float num with
  | None => OverflowError
  | Some f =>
      Returned (if num <? 1024 then Some (fmt_3_1f f 1 ++ [32] ++ lit "bytes")
                else convert_loop [lit "kB"; lit "MB"; lit "GB"; lit "TB"] f 1024)
  end.

(** The operating system's refusals of [os.removexattr] on a present
    name (permissions, read-only file system, ...). *)
Record os_remove : Type := {
  removexattr_fails : store -> bytes -> option errno
}.

Definition remove_name (name : bytes) (st : store) : store :=
  filter (fun p => negb (bytes_eqb (fst p) name)) st.

(** [os.removexattr(target, key)] for a [str] key. *)
Definition removexattr (rm : os_remove) (name : pystr) : M unit :=
  fun st => match fsencode name with
            | None => (st, Raise UnicodeEncodeError)
            | Some nb =>
                if has_name st nb then
                  match removexattr_fails rm st nb with
                  | Some e => (st, Raise (OSError e))
                  | None => (remove_name nb st, Ok tt)
                  end
                else (st, Raise (OSError ENODATA))
            end.

Fixpoint for_each {A} (f : A -> M unit) (l : list A) : M unit :=
  match l with
  | [] => ret tt
  | x :: r => _ <- f x ;; for_each f r
  end.

(** [clear_xattrs] *)
Definition clear_xattrs (rm : os_remove) : M unit :=
  xattrs <- listxattr ;; for_each (removexattr rm) xattrs.

(** The exceptions and exits [main] can end with. *)
Inductive main_exn : Type :=
| PyExn (e : exn)
| SystemExit (code : Z)
| IndexError
| KeyError
| TypeError.

(** [show_json(json)]: [json[0].items()], then printing; [None] when it
    runs through.  JSON object keys are [str], so [d[0]] on a [dict] is a
    [KeyError]. *)
Definition show_json (j : json) : option main_exn :=
  match j with
  | JArr [] => Some IndexError
  | JArr (JObj _ :: _) => None
  | JArr (_ :: _) => Some (PyExn AttributeError)
  | JObj _ => Some KeyError
  | JStr [] => Some IndexError
  | JStr (_ :: _) => Some (PyExn AttributeError)
  | JNull | JBool _ | JInt _ => Some TypeError
  end.

(** What [main] reads from the command line besides the writer's [args]. *)
Record main_args : Type := {
  verbose : nat;
  size : bool;
  clear_first : bool;
  prefix : pystr;
  writer_args : args
}.

(** The JSON source: standard input attached to a terminal, or a JSON
    value [json.load] read from the file or the pipe. *)
Inductive json_source : Type :=
| StdinTty
| Loaded (data : json).

(** [read_json_stdin] / [read_json_file] *)
Definition read_json (src : json_source) : option json :=
  match src with
  | StdinTty => None   (* print(..); sys.exit(1) *)
  | Loaded d => Some d
  end.

Inductive main_result : Type :=
| Raised (e : main_exn)
| PrintedSize (n : nat)   (* print(get_xattrs_size(target)); sys.exit() *)
| Finished.

Section Main.
Variable py_lower : pystr -> pystr.
Variable py_isprintable : Z -> bool.
Variable os : os_store.
Variable rm : os_remove.

Definition lift_exn {A} (m : M A) (k : A -> store -> store * main_result) (st : store)
  : store * main_result :=
  match m st with
  | (st', Ok a) => k a st'
  | (st', Raise e) => (st', Raised (PyExn e))
  end.

(** [main()], from the parsed arguments on. *)
Definition main (ma : main_args) (src : json_source) (st : store) : store * main_result :=
  if size ma then lift_exn (get_xattrs_size os) (fun n st' => (st', PrintedSize n)) st
  else
  match read_json src with
  | None => (st, Raised (SystemExit 1))
  | Some json_data =>
      let metadata := match json_data with
                      | JArr (x :: _) => Some x
                      | JArr [] => None
                      | d => Some d
                      end in
      match metadata with
      | None => (st, Raised IndexError)
      | Some metadata =>
          match (if Nat.ltb 4 (verbose ma) then show_json json_data else None) with
          | Some e => (st, Raised e)
          | None =>
              lift_exn (if clear_first ma then clear_xattrs rm else ret tt)
                (fun _ =>
                   lift_exn (write_xattrs py_lower py_isprintable os (writer_args ma)
                               (prefix ma) (archive (writer_args ma)) metadata)
                     (fun _ st2 => (st2, Finished)))
                st
          end
      end
  end.

End Main.

(** [os.getxattr(target, xattr).decode()], the body of the loop of
    [get_xattrs_size]. *)
Definition get_value (os : os_store) (x : pystr) : M pystr :=
  b <- getxattr os x ;; of_option UnicodeDecodeError (utf8_decode b).


(** A byte, as [os.listxattr] and [os.getxattr] return them. *)
Definition is_byte (b : Z) : Prop := 0 <= b < 256.



(** A target on which every [os.removexattr] of a present name succeeds. *)
Definition ideal_remove : os_remove := {| removexattr_fails := fun _ _ => None |}.

End J2xMain.

(* ------------------------------------------------------------------ *)
(** ** Facts about the per-pair write and the mapping writer *)

Module J2xFacts.
Import PyStr PyJson Xattr J2x Runtime.

Section Facts.

Variable py_lower : pystr -> pystr.
Variable py_isprintable : Z -> bool.
Variable os : os_store.

(** Unfold one [write_xattr] call down to its branches. *)
Ltac open_write_xattr H :=
  unfold write_xattr, bind, ret, raise, of_option, try_except, setxattr_create in H;
  repeat (cbv beta iota delta [ret raise] in H; match type of H with
  | context [if ?b then _ else _] =>
      lazymatch b with
      | context [if _ then _ else _] => fail
      | _ => let E := fresh "E" in destruct b eqn:E
      end
  | context [match utf8_encode ?s with _ => _ end] =>
      let E := fresh "E" in destruct (utf8_encode s) eqn:E
  | context [match setxattr_refuses ?o ?a ?b with _ => _ end] =>
      let E := fresh "E" in destruct (setxattr_refuses o a b) eqn:E
  | context [match setxattr_fails ?o ?a ?b ?c with _ => _ end] =>
      let E := fresh "E" in destruct (setxattr_fails o a b c) eqn:E
  end).

(** A successful [write_xattr] either leaves the store as it was with a
    zero tally, or appends exactly one new attribute, the encoded
    [prefix + strkey] and [strval], and counts their byte lengths. *)
Lemma write_xattr_ok_cases cfg prefix a k v st st' w :
  write_xattr py_lower py_isprintable os cfg prefix a k v st = (st', Ok w) ->
  (st' = st /\ w = zero_tally) \/
  (exists kb vb,
      utf8_encode (prefix ++ normalize_key py_lower cfg a k) = Some kb /\
      utf8_encode (str_ py_isprintable (normalize_value py_lower py_isprintable cfg a v)) = Some vb /\
      has_name st kb = false /\
      st' = st ++ [(kb, vb)] /\
      w = {| keys := List.length kb; values := List.length vb |}).
Proof.
  intros H. open_write_xattr H; inversion H; subst; auto.
  right. exists b0, b. repeat split; auto.
Qed.

(** A failing [write_xattr] leaves the store untouched, and the
    "already exists" condition never escapes it. *)
Lemma write_xattr_raise cfg prefix a k v st st' e :
  write_xattr py_lower py_isprintable os cfg prefix a k v st = (st', Raise e) ->
  st' = st /\ e <> FileExistsError.
Proof.
  intros H. open_write_xattr H; inversion H; subst; split; auto; discriminate.
Qed.

Lemma digits_fuel_nonempty f n acc : acc <> [] -> digits_fuel f n acc <> [].
Proof.
  revert n acc. induction f as [|f IH]; intros n acc Hacc; simpl; [exact Hacc|].
  destruct (n <? 10); [discriminate | apply IH; discriminate].
Qed.

Lemma py_repr_nonempty v : py_repr py_isprintable v <> [].
Proof.
  destruct v as [|[|]|z|s|l|l]; simpl; try discriminate.
  unfold int_str. destruct (z <? 0); [discriminate|].
  simpl. destruct (Z.abs z <? 10); [discriminate|].
  apply digits_fuel_nonempty; discriminate.
Qed.

(** A pair whose composed name is already on the target, whose value
    encodes, and whose write the system does not refuse before looking the
    name up, meets [EEXIST], which [write_xattr] swallows. *)
Lemma write_xattr_present cfg prefix a k v st kb vb :
  utf8_encode (prefix ++ normalize_key py_lower cfg a k) = Some kb ->
  has_name st kb = true ->
  utf8_encode (str_ py_isprintable (normalize_value py_lower py_isprintable cfg a v)) = Some vb ->
  setxattr_refuses os kb vb = None ->
  write_xattr py_lower py_isprintable os cfg prefix a k v st = (st, Ok zero_tally).
Proof.
  intros Hk Hhas Hv Hr.
  unfold write_xattr, bind, of_option, try_except, setxattr_create, ret, raise.
  destruct (_ && _); [reflexivity|].
  rewrite Hv, Hk. cbv beta iota zeta. rewrite Hr, Hhas. reflexivity.
Qed.


(** ** C3 *)
(** C3: a pair whose value normalises to the empty string is skipped when
    writing empty values is disabled: zero tally, no error, store
    unchanged. *)
Theorem write_xattr_skips_empty_value cfg prefix a k v st :
  normalize_value py_lower py_isprintable cfg a v = JStr [] ->
  empty_values cfg = false ->
  write_xattr py_lower py_isprintable os cfg prefix a k v st = (st, Ok zero_tally).
Proof.
  intros Hv He. unfold write_xattr. rewrite Hv, He. reflexivity.
Qed.


(** ** C8 (the list path) *)
(** C8: [write_xattrs] on a list never reaches [write_xattr]: it raises
    [AttributeError] ([list] has no [items]) and writes nothing. *)
Theorem write_xattrs_list_raises cfg prefix a l st :
  write_xattrs py_lower py_isprintable os cfg prefix a (JArr l) st = (st, Raise AttributeError).
Proof. reflexivity. Qed.

(** ** C9 *)
(** C9: on the empty mapping the loop body never runs, [written] is
    unbound at [return written], and [UnboundLocalError] is raised with
    nothing written. *)
Theorem write_xattrs_dict_empty cfg prefix a st :
  write_xattrs_dict py_lower py_isprintable os cfg prefix a [] st = (st, Raise UnboundLocalError) /\
  write_xattrs py_lower py_isprintable os cfg prefix a (JObj []) st = (st, Raise UnboundLocalError).
Proof. split; reflexivity. Qed.

(** ** C10 *)
(** C10: in archive mode with empty values disabled, a value that is
    falsy in Python ([None], [False], [0], [""], [[]], [{}]) is skipped
    (zero tally, store unchanged), although [str()] of every such value
    other than [""] is a non-empty string. *)
Theorem write_xattr_archive_skips_falsy cfg prefix k v st :
  empty_values cfg = false ->
  py_truthy v = false ->
  write_xattr py_lower py_isprintable os cfg prefix true k v st = (st, Ok zero_tally) /\
  ((forall s, v <> JStr s) -> str_ py_isprintable v <> []).
Proof.
  intros He Hv. split.
  - unfold write_xattr, normalize_value. cbv beta iota zeta. rewrite Hv, He. reflexivity.
  - intros Hs. unfold str_, py_str.
    destruct v; try (apply py_repr_nonempty). exfalso; eapply Hs; reflexivity.
Qed.

(** ** The loop of [write_xattrs_dict] *)

Lemma dict_loop_app cfg prefix a l1 l2 t w st :
  dict_loop py_lower py_isprintable os cfg prefix a (l1 ++ l2) t w st =
  match dict_loop py_lower py_isprintable os cfg prefix a l1 t w st with
  | (s, Ok (t', w')) => dict_loop py_lower py_isprintable os cfg prefix a l2 t' w' s
  | (s, Raise e) => (s, Raise e)
  end.
Proof.
  revert t w st. induction l1 as [|[k v] l1 IH]; intros t w st; [reflexivity|].
  cbn [app dict_loop]. unfold bind.
  destruct (write_xattr py_lower py_isprintable os cfg prefix a k v st) as [s [x|e]];
    [apply IH | reflexivity].
Qed.

Lemma byte_sum_cons b l : byte_sum (b :: l) = (List.length b + byte_sum l)%nat.
Proof. reflexivity. Qed.

(** The [total] the loop accumulates obeys the byte-accounting law: the
    loop only appends attributes to the store, and [total] grows by the
    name and value byte lengths of exactly the appended attributes. *)
Lemma dict_loop_accounting cfg prefix a l t w st st' t' w' :
  dict_loop py_lower py_isprintable os cfg prefix a l t w st = (st', Ok (t', w')) ->
  exists added,
    st' = st ++ added /\
    keys t' = (keys t + byte_sum (map fst added))%nat /\
    values t' = (values t + byte_sum (map snd added))%nat.
Proof.
  revert t w st. induction l as [|[k v] l IH]; intros t w st H.
  - inversion H; subst. exists []. rewrite app_nil_r. unfold byte_sum. simpl.
    repeat split; lia.
  - cbn [dict_loop] in H. unfold bind in H.
    destruct (write_xattr py_lower py_isprintable os cfg prefix a k v st)
      as [s [x|e]] eqn:Hw; [|discriminate].
    destruct (IH _ _ _ H) as (added & -> & Hk & Hv).
    destruct (write_xattr_ok_cases _ _ _ _ _ _ _ _ Hw)
      as [[-> ->] | (kb & vb & _ & _ & _ & -> & ->)].
    + exists added. simpl in Hk, Hv. repeat split; [lia | lia].
    + exists ((kb, vb) :: added). rewrite <- app_assoc. simpl in *.
      rewrite !byte_sum_cons. repeat split; [lia | lia].
Qed.

(** ** C7 *)
(** C7: if [write_xattr] raises on a pair, after the pairs before it went
    through, [write_xattrs_dict] raises that same exception (never the
    "already exists" one), processes none of the later pairs, and leaves
    the store as the earlier pairs left it, their attributes kept. *)
Theorem write_xattrs_dict_fail_fast cfg prefix a pre k v post st st1 t w st2 e :
  dict_loop py_lower py_isprintable os cfg prefix a pre zero_tally None st = (st1, Ok (t, w)) ->
  write_xattr py_lower py_isprintable os cfg prefix a k v st1 = (st2, Raise e) ->
  write_xattrs_dict py_lower py_isprintable os cfg prefix a (pre ++ (k, v) :: post) st
    = (st1, Raise e) /\
  e <> FileExistsError /\
  (exists added, st1 = st ++ added).
Proof.
  intros Hpre Hk.
  destruct (write_xattr_raise _ _ _ _ _ _ _ _ Hk) as [-> Hne].
  split; [|split; [exact Hne|]].
  - unfold write_xattrs_dict, bind at 1. rewrite dict_loop_app, Hpre.
    cbn [dict_loop]. unfold bind. rewrite Hk. reflexivity.
  - destruct (dict_loop_accounting _ _ _ _ _ _ _ _ _ _ Hpre) as (added & -> & _).
    eauto.
Qed.

(** ** Running the mapping writer a second time *)

Lemma has_name_app s1 s2 n : has_name s1 n = true -> has_name (s1 ++ s2) n = true.
Proof. unfold has_name. rewrite existsb_app. intros ->. reflexivity. Qed.

Lemma has_name_last s kb vb : has_name (s ++ [(kb, vb)]) kb = true.
Proof.
  unfold has_name. rewrite existsb_app. simpl. unfold bytes_eqb.
  destruct (list_eq_dec Z.eq_dec kb kb) as [_|n]; [|congruence].
  apply orb_true_r.
Qed.

(** After [write_xattr] returned on a pair, the pair is settled: on any
    store holding at least the names it left, writing it again changes
    nothing and counts nothing. *)
Lemma write_xattr_settles cfg prefix a k v st st' w st'' :
  write_xattr py_lower py_isprintable os cfg prefix a k v st = (st', Ok w) ->
  incl_names st' st'' ->
  write_xattr py_lower py_isprintable os cfg prefix a k v st'' = (st'', Ok zero_tally).
Proof.
  intros H Hincl.
  destruct (negb (py_truthy (normalize_value py_lower py_isprintable cfg a v))
            && negb (empty_values cfg)) eqn:Skip.
  { unfold write_xattr. rewrite Skip. reflexivity. }
  assert (Hv := H). open_write_xattr Hv; try discriminate; try congruence.
  all: inversion Hv; subst.
  all: apply (write_xattr_present _ _ _ _ _ _ b0 b);
    [assumption | apply Hincl; first [assumption | apply has_name_last] | assumption | assumption].
Qed.

Lemma dict_loop_settles cfg prefix a l t w st st' r st'' :
  dict_loop py_lower py_isprintable os cfg prefix a l t w st = (st', Ok r) ->
  incl_names st' st'' ->
  Forall (fun kv => write_xattr py_lower py_isprintable os cfg prefix a (fst kv) (snd kv) st''
                    = (st'', Ok zero_tally)) l.
Proof.
  revert t w st. induction l as [|[k v] l IH]; intros t w st H Hincl; [constructor|].
  cbn [dict_loop] in H. unfold bind in H.
  destruct (write_xattr py_lower py_isprintable os cfg prefix a k v st)
    as [s [x|e]] eqn:Hw; [|discriminate].
  destruct r as [t' w'].
  constructor; [|eapply IH; eauto].
  apply (write_xattr_settles _ _ _ _ _ _ _ _ _ Hw). intros n Hn. apply Hincl.
  destruct (dict_loop_accounting _ _ _ _ _ _ _ _ _ _ H) as (added & -> & _).
  apply has_name_app, Hn.
Qed.

Lemma dict_loop_settled_run cfg prefix a l t w st :
  Forall (fun kv => write_xattr py_lower py_isprintable os cfg prefix a (fst kv) (snd kv) st
                    = (st, Ok zero_tally)) l ->
  dict_loop py_lower py_isprintable os cfg prefix a l t w st
  = (st, Ok (t, match l with [] => w | _ => Some zero_tally end)).
Proof.
  revert t w. induction l as [|[k v] l IH]; intros t w Hall; [reflexivity|].
  inversion Hall as [|? ? Hk Hl]; subst. simpl in Hk.
  cbn [dict_loop]. unfold bind. rewrite Hk.
  assert (Ht : add_tally t zero_tally = t)
    by (destruct t; unfold add_tally; simpl; f_equal; lia).
  rewrite Ht, IH by exact Hl. destruct l; reflexivity.
Qed.

(** ** C5 (as amended) *)
(** C5: for a mapping whose values all normalise to non-empty strings, if
    a first [write_xattrs_dict] run raises no error, a second run on the
    store it left raises no error either and leaves the attributes exactly
    as the first run left them. *)
Theorem write_xattrs_dict_second_run cfg prefix a items st0 st1 w :
  Forall (fun kv => str_ py_isprintable (normalize_value py_lower py_isprintable cfg a (snd kv))
                    <> []) items ->
  write_xattrs_dict py_lower py_isprintable os cfg prefix a items st0 = (st1, Ok w) ->
  write_xattrs_dict py_lower py_isprintable os cfg prefix a items st1 = (st1, Ok zero_tally).
Proof.
  intros _ H. unfold write_xattrs_dict, bind in H.
  destruct (dict_loop py_lower py_isprintable os cfg prefix a items zero_tally None st0)
    as [s [[t' w'] | e]] eqn:Hl; [|discriminate].
  assert (Hset := dict_loop_settles _ _ _ _ _ _ _ _ _ st1 Hl).
  destruct w' as [w'|]; simpl in H; inversion H; subst.
  unfold write_xattrs_dict, bind.
  rewrite dict_loop_settled_run by (apply Hset; intros n Hn; exact Hn).
  destruct items as [|p items]; [discriminate Hl|reflexivity].
Qed.

End Facts.

(** ** C1 (code defect) *)
(** C1: [write_xattrs_dict] accumulates [total] (which obeys the
    byte-accounting law, [dict_loop_accounting]) but returns [written],
    the tally of the last pair only: on [{"k1": "v1", "k2": "v2"}] it
    writes 14 name bytes and 4 value bytes and returns 7 and 2. *)
Theorem write_xattrs_dict_returns_last_pair py_lower py_isprintable :
  write_xattrs_dict py_lower py_isprintable ideal_store default_args (lit "user.") false
    [(lit "k1", JStr (lit "v1")); (lit "k2", JStr (lit "v2"))] []
  = ([(lit "user.k1", lit "v1"); (lit "user.k2", lit "v2")],
     Ok {| keys := 7; values := 2 |}) /\
  byte_sum (map fst [(lit "user.k1", lit "v1"); (lit "user.k2", lit "v2")]) = 14%nat /\
  byte_sum (map snd [(lit "user.k1", lit "v1"); (lit "user.k2", lit "v2")]) = 4%nat.
Proof. repeat split; reflexivity. Qed.

(** ** C6 (code defect) *)
(** C6: [get_xattrs_size] decodes names and values and measures the
    joined [str], so it counts code points: one attribute [user.k] whose
    value is the two UTF-8 bytes of U+00E9 takes 8 bytes, and the function
    returns 7. *)
Theorem get_xattrs_size_counts_code_points :
  get_xattrs_size ideal_store [(lit "user.k", [195; 169])]
  = ([(lit "user.k", [195; 169])], Ok 7%nat) /\
  Nat.add (byte_sum (map fst [(lit "user.k", [195; 169])]))
          (byte_sum (map snd [(lit "user.k", [195; 169])])) = 8%nat.
Proof. split; reflexivity. Qed.


(** ** C5: counterexample to the claim as stated *)
(** C5 fails as stated: [{"k": "\ud800"}] has a value that normalises to
    a non-empty string, yet both runs raise [UnicodeEncodeError], the
    second one included. *)
Lemma write_xattrs_dict_second_run_raises :
  str_ some_printable
    (normalize_value ascii_lower some_printable default_args false (JStr [55296])) = [55296] /\
  write_xattrs_dict ascii_lower some_printable ideal_store default_args (lit "user.") false
    [(lit "k", JStr [55296])] [] = ([], Raise UnicodeEncodeError) /\
  write_xattrs_dict ascii_lower some_printable ideal_store default_args (lit "user.") false
    [(lit "k", JStr [55296])]
    (fst (write_xattrs_dict ascii_lower some_printable ideal_store default_args (lit "user.")
            false [(lit "k", JStr [55296])] []))
  = ([], Raise UnicodeEncodeError).
Proof. repeat split; reflexivity. Qed.

(** ** Witnesses *)


Lemma write_xattr_skips_empty_value_witness :
  normalize_value ascii_lower some_printable default_args false (JStr (lit "   ")) = JStr [] /\
  write_xattr ascii_lower some_printable ideal_store default_args (lit "user.") false
    (lit "k") (JStr (lit "   ")) [] = ([], Ok zero_tally).
Proof.
  split; [reflexivity|].
  apply (write_xattr_skips_empty_value ascii_lower some_printable ideal_store default_args);
    reflexivity.
Defined.


Lemma write_xattrs_dict_second_run_witness :
  write_xattrs_dict ascii_lower some_printable ideal_store default_args (lit "user.") false
    [(lit "k1", JStr (lit "v1"))] [] = ([(lit "user.k1", lit "v1")], Ok {| keys := 7; values := 2 |}) /\
  write_xattrs_dict ascii_lower some_printable ideal_store default_args (lit "user.") false
    [(lit "k1", JStr (lit "v1"))] [(lit "user.k1", lit "v1")]
  = ([(lit "user.k1", lit "v1")], Ok zero_tally).
Proof.
  split; [reflexivity|].
  apply (write_xattrs_dict_second_run ascii_lower some_printable ideal_store default_args
           (lit "user.") false [(lit "k1", JStr (lit "v1"))] [] [(lit "user.k1", lit "v1")]
           {| keys := 7; values := 2 |}).
  - repeat constructor; discriminate.
  - reflexivity.
Defined.

Lemma write_xattrs_dict_fail_fast_witness :
  write_xattrs_dict ascii_lower some_printable ideal_store default_args (lit "user.") false
    ([(lit "k1", JStr (lit "v1"))] ++ (lit "k2", JStr [55296]) :: [(lit "k3", JStr (lit "v3"))]) []
  = ([(lit "user.k1", lit "v1")], Raise UnicodeEncodeError) /\
  UnicodeEncodeError <> FileExistsError /\
  (exists added, [(lit "user.k1", lit "v1")] = [] ++ added).
Proof.
  apply (write_xattrs_dict_fail_fast ascii_lower some_printable ideal_store default_args
           (lit "user.") false [(lit "k1", JStr (lit "v1"))] (lit "k2") (JStr [55296])
           [(lit "k3", JStr (lit "v3"))] [] [(lit "user.k1", lit "v1")]
           {| keys := 7; values := 2 |} (Some {| keys := 7; values := 2 |})
           [(lit "user.k1", lit "v1")] UnicodeEncodeError); reflexivity.
Defined.

Lemma write_xattr_archive_skips_falsy_witness :
  write_xattr ascii_lower some_printable ideal_store default_args (lit "user.") true
    (lit "count") (JInt 0) [] = ([], Ok zero_tally) /\
  str_ some_printable (JInt 0) = lit "0".
Proof.
  split; [|reflexivity].
  apply (write_xattr_archive_skips_falsy ascii_lower some_printable ideal_store default_args
           (lit "user.") (lit "count") (JInt 0) []); reflexivity.
Defined.
End J2xFacts.

(* ------------------------------------------------------------------ *)
(** ** Further facts: UTF-8 round trips, reading back, clearing, [main]
    and [convert_bytes] *)

Module J2xMoreFacts.
Import PyStr PyJson Xattr J2x Runtime J2xMain.

Lemma lor_low c y n target :
  0 <= n -> c mod 2^n = 0 -> 0 <= y < 2^n -> c + y = target -> Z.lor c y = target.
Proof.
  intros Hn Hc Hy <-.
  assert (Hl : Z.land c y = 0).
  { apply Z.bits_inj'; intros i Hi. rewrite Z.land_spec, Z.bits_0.
    destruct (Z.lt_ge_cases i n) as [Hlt|Hge].
    - assert (Hpow : 2^n <> 0) by (apply Z.pow_nonzero; lia).
      apply Z.div_exact in Hc; [|exact Hpow]. rewrite Hc, Z.mul_comm.
      rewrite Z.mul_pow2_bits_low by lia. reflexivity.
    - rewrite <- (Z.mod_small y (2^n)) by lia.
      rewrite Z.mod_pow2_bits_high by lia. apply andb_false_r. }
  rewrite <- Z.lxor_lor by exact Hl. rewrite Z.add_nocarry_lxor by exact Hl. reflexivity.
Qed.

Lemma land_63 x : Z.land x 63 = x mod 64.
Proof. change 63 with (Z.ones 6). rewrite Z.land_ones by lia. reflexivity. Qed.
Lemma land_31 x : Z.land x 31 = x mod 32.
Proof. change 31 with (Z.ones 5). rewrite Z.land_ones by lia. reflexivity. Qed.
Lemma land_15 x : Z.land x 15 = x mod 16.
Proof. change 15 with (Z.ones 4). rewrite Z.land_ones by lia. reflexivity. Qed.
Lemma land_7 x : Z.land x 7 = x mod 8.
Proof. change 7 with (Z.ones 3). rewrite Z.land_ones by lia. reflexivity. Qed.
Lemma shl_6 x : Z.shiftl x 6 = x * 64.
Proof. rewrite Z.shiftl_mul_pow2 by lia. reflexivity. Qed.
Lemma shl_12 x : Z.shiftl x 12 = x * 4096.
Proof. rewrite Z.shiftl_mul_pow2 by lia. reflexivity. Qed.
Lemma shl_18 x : Z.shiftl x 18 = x * 262144.
Proof. rewrite Z.shiftl_mul_pow2 by lia. reflexivity. Qed.
Lemma shr_6 x : Z.shiftr x 6 = x / 64.
Proof. rewrite Z.shiftr_div_pow2 by lia. reflexivity. Qed.
Lemma shr_12 x : Z.shiftr x 12 = x / 4096.
Proof. rewrite Z.shiftr_div_pow2 by lia. reflexivity. Qed.
Lemma shr_18 x : Z.shiftr x 18 = x / 262144.
Proof. rewrite Z.shiftr_div_pow2 by lia. reflexivity. Qed.

Ltac arith_bits :=
  rewrite ?land_63, ?land_31, ?land_15, ?land_7, ?shl_6, ?shl_12, ?shl_18,
          ?shr_6, ?shr_12, ?shr_18 in *.

Ltac zlia := Z.div_mod_to_equations; lia.
Ltac lorn n v := apply (lor_low _ _ n);
  [lia | first [reflexivity | change (2^n) with v; zlia] | change (2^n) with v; zlia | zlia].

Lemma some_eq {A} (a b : A) : Some a = Some b -> a = b.
Proof. congruence. Qed.


Lemma pair_eq {A B} (a c : A) (b d : B) : (a, b) = (c, d) -> a = c /\ b = d.
Proof. intros H; injection H; auto. Qed.

Ltac bool_facts H :=
  repeat (rewrite ?andb_true_iff, ?andb_false_iff, ?orb_false_iff, ?orb_true_iff,
            ?Z.leb_le, ?Z.leb_gt, ?Z.ltb_lt, ?Z.ltb_ge in H).

Lemma utf8_decode_step_encode bs c r :
  Forall is_byte bs -> utf8_decode_step bs = Some (c, r) ->
  exists pre, bs = pre ++ r /\ utf8_encode_char c = Some pre /\ (c < 55296 \/ 57343 < c).
Proof.
  intros Hb H. destruct bs as [|b0 r0]; [discriminate|].
  inversion Hb as [|? ? Hb0 Hbr]; subst. unfold is_byte in Hb0.
  unfold utf8_decode_step in H.
  destruct (Z.ltb_spec b0 128).
  { apply some_eq, pair_eq in H. destruct H as [<- <-].
    exists [b0]. split; [reflexivity|]. split; [|lia].
    unfold utf8_encode_char.
    destruct (Z.ltb_spec b0 0); [lia|]. destruct (Z.ltb_spec b0 128); [reflexivity|lia]. }
  destruct ((194 <=? b0) && (b0 <=? 223)) eqn:E2.
  { bool_facts E2. destruct r0 as [|b1 r0]; [discriminate|].
    unfold is_cont in H.
    destruct ((128 <=? b1) && (b1 <=? 191)) eqn:Ec; [|discriminate]. bool_facts Ec.
    apply some_eq, pair_eq in H. destruct H as [<- <-].
    assert (Hcp : Z.lor (Z.shiftl (Z.land b0 31) 6) (Z.land b1 63)
                  = (b0 - 192) * 64 + (b1 - 128)) by (arith_bits; lorn 6 64).
    rewrite Hcp. exists [b0; b1]. split; [reflexivity|]. split; [|zlia].
    unfold utf8_encode_char.
    destruct (Z.ltb_spec ((b0 - 192) * 64 + (b1 - 128)) 0); [lia|].
    destruct (Z.ltb_spec ((b0 - 192) * 64 + (b1 - 128)) 128); [lia|].
    destruct (Z.ltb_spec ((b0 - 192) * 64 + (b1 - 128)) 2048); [|lia].
    apply f_equal. apply (f_equal2 cons); [|apply (f_equal2 cons); [|reflexivity]].
    - rewrite shr_6. lorn 6 64.
    - rewrite land_63. lorn 6 64. }
  destruct ((224 <=? b0) && (b0 <=? 239)) eqn:E3.
  { bool_facts E3. destruct r0 as [|b1 [|b2 r0]]; try discriminate.
    unfold is_cont in H.
    destruct ((128 <=? b1) && (b1 <=? 191) && ((128 <=? b2) && (b2 <=? 191))) eqn:Ec;
      [|discriminate]. bool_facts Ec.
    assert (Hcp : Z.lor (Z.shiftl (Z.land b0 15) 12)
                    (Z.lor (Z.shiftl (Z.land b1 63) 6) (Z.land b2 63))
                  = (b0 - 224) * 4096 + (b1 - 128) * 64 + (b2 - 128)).
    { arith_bits.
      assert (Ein : Z.lor (b1 mod 64 * 64) (b2 mod 64) = (b1 - 128) * 64 + (b2 - 128))
        by lorn 6 64.
      rewrite Ein. lorn 12 4096. }
    cbv zeta in H. rewrite Hcp in H.
    set (cp := (b0 - 224) * 4096 + (b1 - 128) * 64 + (b2 - 128)) in *.
    destruct ((cp <? 2048) || ((55296 <=? cp) && (cp <=? 57343))) eqn:Ek;
      [discriminate|]. bool_facts Ek.
    apply some_eq, pair_eq in H. destruct H as [<- <-].
    exists [b0; b1; b2]. split; [reflexivity|]. split; [|lia].
    unfold utf8_encode_char.
    destruct (Z.ltb_spec cp 0); [lia|].
    destruct (Z.ltb_spec cp 128); [lia|].
    destruct (Z.ltb_spec cp 2048); [lia|].
    destruct (Z.leb_spec 55296 cp); destruct (Z.leb_spec cp 57343); cbn [andb];
      try lia.
    all: destruct (Z.ltb_spec cp 65536); [|unfold cp in *; zlia].
    all: apply f_equal; apply (f_equal2 cons);
      [|apply (f_equal2 cons); [|apply (f_equal2 cons); [|reflexivity]]];
      unfold cp; arith_bits; [lorn 4 16 | lorn 6 64 | lorn 6 64]. }
  destruct ((240 <=? b0) && (b0 <=? 244)) eqn:E4; [|discriminate].
  bool_facts E4. destruct r0 as [|b1 [|b2 [|b3 r0]]]; try discriminate.
  unfold is_cont in H.
  destruct ((128 <=? b1) && (b1 <=? 191) && ((128 <=? b2) && (b2 <=? 191))
            && ((128 <=? b3) && (b3 <=? 191))) eqn:Ec; [|discriminate]. bool_facts Ec.
  assert (Hcp : Z.lor (Z.shiftl (Z.land b0 7) 18)
                  (Z.lor (Z.shiftl (Z.land b1 63) 12)
                     (Z.lor (Z.shiftl (Z.land b2 63) 6) (Z.land b3 63)))
                = (b0 - 240) * 262144 + (b1 - 128) * 4096 + (b2 - 128) * 64 + (b3 - 128)).
  { arith_bits.
    assert (Ein : Z.lor (b2 mod 64 * 64) (b3 mod 64) = (b2 - 128) * 64 + (b3 - 128))
      by lorn 6 64.
    rewrite Ein.
    assert (Emid : Z.lor (b1 mod 64 * 4096) ((b2 - 128) * 64 + (b3 - 128))
                   = (b1 - 128) * 4096 + (b2 - 128) * 64 + (b3 - 128)) by lorn 12 4096.
    rewrite Emid. lorn 18 262144. }
  cbv zeta in H. rewrite Hcp in H.
  set (cp := (b0 - 240) * 262144 + (b1 - 128) * 4096 + (b2 - 128) * 64 + (b3 - 128)) in *.
  destruct ((cp <? 65536) || (1114111 <? cp)) eqn:Ek; [discriminate|]. bool_facts Ek.
  apply some_eq, pair_eq in H. destruct H as [<- <-].
  exists [b0; b1; b2; b3]. split; [reflexivity|]. split; [|lia].
  unfold utf8_encode_char.
  destruct (Z.ltb_spec cp 0); [lia|].
  destruct (Z.ltb_spec cp 128); [lia|].
  destruct (Z.ltb_spec cp 2048); [lia|].
  destruct (Z.leb_spec 55296 cp); destruct (Z.leb_spec cp 57343); cbn [andb]; try lia.
  destruct (Z.ltb_spec cp 65536); [lia|].
  destruct (Z.leb_spec cp 1114111); [|lia].
  apply f_equal; apply (f_equal2 cons);
    [|apply (f_equal2 cons); [|apply (f_equal2 cons); [|apply (f_equal2 cons); [|reflexivity]]]];
    unfold cp; arith_bits; [lorn 3 8 | lorn 6 64 | lorn 6 64 | lorn 6 64].
Qed.

Lemma utf8_encode_char_nonempty c pre : utf8_encode_char c = Some pre -> pre <> [].
Proof.
  unfold utf8_encode_char. intros H.
  destruct (c <? 0); [discriminate|]. destruct (c <? 128); [apply some_eq in H; subst; discriminate|].
  destruct (c <? 2048); [apply some_eq in H; subst; discriminate|].
  destruct ((55296 <=? c) && (c <=? 57343)); [discriminate|].
  destruct (c <? 65536); [apply some_eq in H; subst; discriminate|].
  destruct (c <=? 1114111); [apply some_eq in H; subst; discriminate|discriminate].
Qed.



Lemma fsencode_fsdecode_fuel f bs :
  Forall is_byte bs -> (List.length bs <= f)%nat -> fsencode (fsdecode_fuel f bs) = Some bs.
Proof.
  revert bs. induction f as [|f IH]; intros bs Hb Hf.
  - destruct bs; [reflexivity|cbn in Hf; lia].
  - destruct bs as [|b r]; [reflexivity|].
    cbn [fsdecode_fuel].
    destruct (utf8_decode_step (b :: r)) as [[c r']|] eqn:Hd.
    + destruct (utf8_decode_step_encode _ _ _ Hb Hd) as (pre & Hbs & Ec & Hsur).
      pose proof (utf8_encode_char_nonempty _ _ Ec) as Hne.
      assert (Hlen : (List.length r' <= f)%nat).
      { rewrite Hbs, length_app in Hf. destruct pre; [congruence|cbn in Hf; lia]. }
      assert (Hb' : Forall is_byte r').
      { rewrite Hbs in Hb. apply Forall_app in Hb. tauto. }
      cbn [fsencode]. rewrite (IH r' Hb' Hlen).
      destruct (Z.leb_spec 56448 c); destruct (Z.leb_spec c 56575); cbn [andb];
        try lia; rewrite Ec; rewrite Hbs; reflexivity.
    + inversion Hb as [|? ? Hb0 Hbr]; subst. unfold is_byte in Hb0.
      assert (Hhi : 128 <= b).
      { destruct (Z.ltb_spec b 128); [|lia]. unfold utf8_decode_step in Hd.
        destruct (Z.ltb_spec b 128); [discriminate|lia]. }
      cbn [fsencode]. rewrite (IH r Hbr) by (cbn in Hf; lia).
      destruct (Z.leb_spec 56448 (56320 + b)); destruct (Z.leb_spec (56320 + b) 56575);
        cbn [andb]; try lia.
      replace (56320 + b - 56320) with b by lia. reflexivity.
Qed.

(** ** X2: attribute names listed by [os.listxattr] can be handed back *)
(** Every name [os.listxattr] returns, decoded with [os.fsdecode] (UTF-8
    with surrogate escapes), encodes back with [os.fsencode] to exactly the
    stored name bytes, whether or not they are valid UTF-8: the names
    [get_xattrs_size] and [clear_xattrs] pass to [os.getxattr] and
    [os.removexattr] are the listed attributes. *)
Theorem fsencode_fsdecode bs : Forall is_byte bs -> fsencode (fsdecode bs) = Some bs.
Proof. intros Hb. apply fsencode_fsdecode_fuel; [exact Hb | lia]. Qed.















Lemma lstrip_idem s : lstrip (lstrip s) = lstrip s.
Proof.
  induction s as [|c r IH]; [reflexivity|]. cbn [lstrip].
  destruct (py_isspace c) eqn:E; [exact IH|]. cbn [lstrip]. rewrite E. reflexivity.
Qed.

Lemma lstrip_head s c r : lstrip s = c :: r -> py_isspace c = false.
Proof.
  induction s as [|d s IH]; cbn [lstrip]; [discriminate|].
  destruct (py_isspace d) eqn:E; [exact IH|]. intros H. injection H as -> _. exact E.
Qed.

Lemma lstrip_stops l c m : py_isspace c = false -> exists l', lstrip (l ++ c :: m) = l' ++ c :: m.
Proof.
  intros Hc. induction l as [|d l IH].
  - exists []. cbn. rewrite Hc. reflexivity.
  - cbn [app lstrip]. destruct (py_isspace d); [exact IH|]. exists (d :: l). reflexivity.
Qed.

Lemma py_strip_idem s : py_strip (py_strip s) = py_strip s.
Proof.
  unfold py_strip at 2 3. set (t := lstrip s). set (u := lstrip (rev t)).
  assert (Hu : lstrip (rev u) = rev u).
  { destruct t as [|c r] eqn:Ht.
    - subst u. reflexivity.
    - assert (Hc : py_isspace c = false) by (apply (lstrip_head s c r); exact Ht).
      subst u. cbn [rev]. destruct (lstrip_stops (rev r) c [] Hc) as [l' ->].
      rewrite rev_app_distr. cbn. rewrite Hc. reflexivity. }
  unfold py_strip. rewrite Hu, rev_involutive. subst u. rewrite lstrip_idem. reflexivity.
Qed.






Section W.
Variable py_lower : pystr -> pystr.
Variable py_isprintable : Z -> bool.
Variable os : os_store.




End W.


Section W2.
Variable py_lower : pystr -> pystr.
Variable py_isprintable : Z -> bool.
Variable os : os_store.



End W2.







Lemma mapM_get_value_readonly os xs st : fst (mapM (get_value os) xs st) = st.
Proof.
  induction xs as [|x xs IH]; [reflexivity|]. cbn [mapM]. unfold bind at 1.
  assert (Hg : fst (get_value os x st) = st).
  { unfold get_value, bind, getxattr, of_option.
    destruct (fsencode x) as [nb|]; [|reflexivity].
    destruct (getxattr_refuses os nb); [reflexivity|].
    destruct (lookup nb st) as [b|]; [|reflexivity].
    destruct (utf8_decode b); reflexivity. }
  destruct (get_value os x st) as [s [y|e]]; cbn in Hg; subst s.
  - unfold bind. destruct (mapM (get_value os) xs st) as [s [ys|e]] eqn:E; cbn in IH |- *; congruence.
  - reflexivity.
Qed.

Lemma get_xattrs_size_readonly os st : fst (get_xattrs_size os st) = st.
Proof.
  unfold get_xattrs_size, read_xattrs, listxattr, bind at 1.
  change (fun x => b <- getxattr os x ;; of_option UnicodeDecodeError (utf8_decode b))
    with (get_value os).
  unfold bind. pose proof (mapM_get_value_readonly os (map (fun p => fsdecode (fst p)) st) st) as H.
  destruct (mapM (get_value os) _ st) as [s [v|e]]; cbn in H |- *; congruence.
Qed.

Section M.
Variable py_lower : pystr -> pystr.
Variable py_isprintable : Z -> bool.
Variable os : os_store.
Variable rm : os_remove.


(** ** X11: [-s] only reads *)
(** With the size option, whatever the JSON source (it is never read),
    [main] prints the count [get_xattrs_size] returns on the target, or
    raises the exception [get_xattrs_size] raises, and changes no
    attribute of the target. *)
Theorem main_size_readonly ma src st :
  size ma = true ->
  exists r, get_xattrs_size os st = (st, r) /\
    main py_lower py_isprintable os rm ma src st =
    (st, match r with Ok n => PrintedSize n | Raise e => Raised (PyExn e) end).
Proof.
  intros Hs. unfold main. rewrite Hs. unfold lift_exn.
  pose proof (get_xattrs_size_readonly os st) as H.
  destruct (get_xattrs_size os st) as [s [n|e]]; cbn in H; subst s; eauto.
Qed.

(** ** X12: only the first element of a top-level list is used *)
(** A top-level JSON list is treated as its first element alone: the
    elements after it never influence [main], at any verbosity. *)
Theorem main_first_element_only ma x rest st :
  main py_lower py_isprintable os rm ma (Loaded (JArr (x :: rest))) st =
  main py_lower py_isprintable os rm ma (Loaded (JArr [x])) st.
Proof. unfold main. destruct (size ma); [reflexivity|]. destruct x; reflexivity. Qed.

(** ** X13: [-v 5] and more crash [show_json] on a mapping *)
(** At verbosity above 4 (without [-s]), [show_json] evaluates
    [json[0]]: a top-level mapping raises [KeyError] and a list whose first
    element is not a mapping raises [AttributeError], before any attribute
    is cleared or written. *)
Theorem main_verbose_show_json ma st :
  size ma = false -> (4 < verbose ma)%nat ->
  (forall items, main py_lower py_isprintable os rm ma (Loaded (JObj items)) st
                 = (st, Raised KeyError)) /\
  (forall x rest, (forall items, x <> JObj items) ->
     main py_lower py_isprintable os rm ma (Loaded (JArr (x :: rest))) st
     = (st, Raised (PyExn AttributeError))).
Proof.
  intros Hs Hv. apply Nat.ltb_lt in Hv. unfold main. rewrite Hs, Hv. split.
  - reflexivity.
  - intros x rest Hx. destruct x; try reflexivity. exfalso; eapply Hx; reflexivity.
Qed.



End M.

Lemma round_half_even_bounds n d : 0 < d -> n / d <= round_half_even n d <= n / d + 1.
Proof.
  intros Hd. unfold round_half_even. cbv zeta.
  destruct (_ <? _); [lia|]. destruct (_ <? _); [lia|]. destruct (Z.even _); lia.
Qed.

Lemma pow_1024_gap : 2 ^ 970 + 2 ^ 1023 < 2 ^ 1024.
Proof. apply Z.ltb_lt. reflexivity. Qed.

Lemma pow_lt_53_1024 : 2 ^ 53 < 2 ^ 1024.
Proof. apply Z.ltb_lt. reflexivity. Qed.

(** An [int] below [2^53] in magnitude converts to [float] exactly. *)
Lemma int_to_float_small n : Z.abs n < 2 ^ 53 -> int_to_float n = Some n.
Proof.
  intros H. unfold int_to_float. cbv zeta.
  rewrite (proj2 (Z.ltb_lt _ _) H).
  pose proof pow_lt_53_1024.
  rewrite (proj2 (Z.ltb_lt (Z.abs n) (2 ^ 1024))) by lia.
  destruct (Z.ltb_spec n 0); f_equal; lia.
Qed.

(** From [2^53] on, the rounded magnitude lies between the power of two
    below [|n|] and [|n|] plus one unit in the last place. *)
Lemma int_to_float_round n :
  2 ^ 53 <= Z.abs n ->
  exists r, (2 ^ Z.log2 (Z.abs n) <= r <= Z.abs n + 2 ^ (Z.log2 (Z.abs n) - 52)) /\
    int_to_float n = if r <? 2 ^ 1024 then Some (if n <? 0 then - r else r) else None.
Proof.
  intros H. unfold int_to_float. cbv zeta.
  rewrite (proj2 (Z.ltb_ge _ _) H).
  assert (Hl : 53 <= Z.log2 (Z.abs n))
    by (rewrite <- (Z.log2_pow2 53) by lia; apply Z.log2_le_mono; exact H).
  assert (Hsp := Z.log2_spec (Z.abs n) ltac:(lia)).
  set (a := Z.abs n) in *. set (e := Z.log2 a) in *.
  assert (Hs : 0 < 2 ^ (e - 52)) by (apply Z.pow_pos_nonneg; lia).
  assert (Hsplit : 2 ^ e = 2 ^ 52 * 2 ^ (e - 52))
    by (rewrite <- Z.pow_add_r by lia; f_equal; lia).
  pose proof (round_half_even_bounds a (2 ^ (e - 52)) Hs) as Hr.
  exists (round_half_even a (2 ^ (e - 52)) * 2 ^ (e - 52)). split; [|reflexivity].
  pose proof (Z.mul_div_le a (2 ^ (e - 52)) Hs).
  assert (2 ^ 52 <= a / 2 ^ (e - 52)) by (apply Z.div_le_lower_bound; lia).
  split; nia.
Qed.

Lemma int_to_float_overflow n : 2 ^ 1024 <= Z.abs n -> int_to_float n = None.
Proof.
  intros H. pose proof pow_lt_53_1024.
  destruct (int_to_float_round n ltac:(lia)) as (r & [Hlo _] & ->).
  assert (1024 <= Z.log2 (Z.abs n))
    by (rewrite <- (Z.log2_pow2 1024) by lia; apply Z.log2_le_mono; exact H).
  assert (2 ^ 1024 <= 2 ^ Z.log2 (Z.abs n)) by (apply Z.pow_le_mono_r; lia).
  rewrite (proj2 (Z.ltb_ge r _)) by lia. reflexivity.
Qed.

Lemma int_to_float_in_range n :
  Z.abs n < 2 ^ 1023 ->
  exists f, int_to_float n = Some f /\ (2 ^ 53 <= n -> 2 ^ 53 <= f).
Proof.
  intros H. destruct (Z.ltb_spec (Z.abs n) (2 ^ 53)) as [Hs|Hs].
  - exists n. split; [apply int_to_float_small; exact Hs | lia].
  - destruct (int_to_float_round n Hs) as (r & [Hlo Hhi] & ->).
    assert (Hl : Z.log2 (Z.abs n) < 1023) by (apply Z.log2_lt_pow2; lia).
    assert (Hl2 : 53 <= Z.log2 (Z.abs n))
      by (rewrite <- (Z.log2_pow2 53) by lia; apply Z.log2_le_mono; exact Hs).
    assert (2 ^ (Z.log2 (Z.abs n) - 52) <= 2 ^ 970) by (apply Z.pow_le_mono_r; lia).
    assert (2 ^ 53 <= 2 ^ Z.log2 (Z.abs n)) by (apply Z.pow_le_mono_r; lia).
    pose proof pow_1024_gap.
    rewrite (proj2 (Z.ltb_lt r _)) by lia.
    exists (if n <? 0 then - r else r). split; [reflexivity|].
    intros Hn. rewrite (proj2 (Z.ltb_ge n 0)) by lia. lia.
Qed.

Lemma convert_loop_none f :
  convert_loop [lit "kB"; lit "MB"; lit "GB"; lit "TB"] f 1024 = None <-> 1024 ^ 5 <= f.
Proof.
  cbn [convert_loop].
  destruct (Z.ltb_spec f (1024 * 1024)); [split; [discriminate | lia]|].
  destruct (Z.ltb_spec f (1024 * (1024 * 1024))); [split; [discriminate | lia]|].
  destruct (Z.ltb_spec f (1024 * (1024 * 1024 * 1024))); [split; [discriminate | lia]|].
  destruct (Z.ltb_spec f (1024 * (1024 * 1024 * 1024 * 1024))); [split; [discriminate | lia]|].
  split; [lia | reflexivity].
Qed.

(** ** X16: [convert_bytes] falls off its loop from 1024 TB on *)
(** Below [2^1023] in magnitude [convert_bytes(num)] never raises, and it
    returns [None] (printed as ["None"] by its callers) exactly when
    [num >= 1024^5]: from 1024 TB on the loop runs out of units, also
    where [float(num)] is rounded. *)
Theorem convert_bytes_none_iff num :
  Z.abs num < 2 ^ 1023 ->
  exists r, convert_bytes num = Returned r /\ (r = None <-> 1024 ^ 5 <= num).
Proof.
  intros H. destruct (int_to_float_in_range num H) as (f & Hf & Hbig).
  unfold convert_bytes. rewrite Hf. eexists; split; [reflexivity|].
  destruct (Z.ltb_spec num 1024); [split; [discriminate | lia]|].
  rewrite convert_loop_none.
  destruct (Z.ltb_spec num (2 ^ 53)) as [Hs|Hs].
  - rewrite int_to_float_small in Hf by lia. injection Hf as <-. reflexivity.
  - specialize (Hbig Hs). split; intros; lia.
Qed.

(** ** X17: [convert_bytes] picks the largest unit not above [num] *)
(** For [i < 5], if [1024^i <= num < 1024^(i+1)] (for [i = 0]: [num < 1024]
    and [num > -2^53], where [float(num)] is exact), [convert_bytes(num)]
    is [num / 1024^i] formatted with ["%3.1f"], a space and the [i]-th
    unit. *)
Theorem convert_bytes_unit num i :
  (i < 5)%nat ->
  ((i = 0%nat /\ - 2 ^ 53 < num) \/ 1024 ^ Z.of_nat i <= num) ->
  num < 1024 ^ (Z.of_nat i + 1) ->
  convert_bytes num =
  Returned (Some (fmt_3_1f num (1024 ^ Z.of_nat i) ++ [32] ++
                  nth i [lit "bytes"; lit "kB"; lit "MB"; lit "GB"; lit "TB"] [])).
Proof.
  intros Hi Hlo Hhi. unfold convert_bytes.
  destruct i as [|[|[|[|[|i]]]]]; [| | | | |lia]; cbn [Z.of_nat nth] in *;
    destruct Hlo as [[Hz Hlo]|Hlo]; try discriminate;
    rewrite int_to_float_small by lia; cbn [convert_loop].
  all: repeat match goal with
         | |- context [if ?a <? ?b then _ else _] => destruct (Z.ltb_spec a b); [|]
         end; try (exfalso; lia); reflexivity.
Qed.

(** ** X18: [convert_bytes] raises [OverflowError] beyond the [float] range *)
(** From [2^1024] in magnitude on, [float(num)] overflows, whether
    ["%3.1f" % num] (negative [num]) or [num /= 1024.0] (positive [num])
    converts it: [convert_bytes] raises [OverflowError] instead of
    returning. *)
Theorem convert_bytes_overflow num :
  2 ^ 1024 <= Z.abs num -> convert_bytes num = OverflowError.
Proof.
  intros H. unfold convert_bytes. rewrite int_to_float_overflow by exact H. reflexivity.
Qed.

Section W3.
Variable py_lower : pystr -> pystr.
Variable py_isprintable : Z -> bool.
Variable os : os_store.


Lemma clean_key_strip cfg k :
  clean_key py_lower cfg (py_strip k) = clean_key py_lower cfg k.
Proof. unfold clean_key. rewrite py_strip_idem. reflexivity. Qed.

Lemma clean_value_strip cfg s :
  clean_value py_lower py_isprintable cfg (JStr (py_strip s))
  = clean_value py_lower py_isprintable cfg (JStr s).
Proof. unfold clean_value, str_, py_str. rewrite py_strip_idem. reflexivity. Qed.

(** ** X8: outside archive mode, surrounding whitespace is irrelevant *)
(** Outside archive mode, stripping the key, or stripping a string value,
    before calling [write_xattr] changes nothing: [str.strip] is
    idempotent, so the key and value are normalised alike. *)
Theorem write_xattr_ignores_padding cfg prefix k v s st :
  write_xattr py_lower py_isprintable os cfg prefix false (py_strip k) v st
  = write_xattr py_lower py_isprintable os cfg prefix false k v st /\
  write_xattr py_lower py_isprintable os cfg prefix false k (JStr (py_strip s)) st
  = write_xattr py_lower py_isprintable os cfg prefix false k (JStr s) st.
Proof.
  unfold write_xattr, normalize_key, normalize_value.
  rewrite clean_key_strip, clean_value_strip. split; reflexivity.
Qed.

End W3.

Section W4.
Variable py_lower : pystr -> pystr.
Variable py_isprintable : Z -> bool.
Variable os : os_store.
Variable rm : os_remove.





End W4.

(** ** Witnesses *)


Lemma fsencode_fsdecode_witness :
  Forall is_byte [255; 104; 195; 169] /\
  fsdecode [255; 104; 195; 169] = [56575; 104; 233] /\
  fsencode (fsdecode [255; 104; 195; 169]) = Some [255; 104; 195; 169].
Proof.
  split; [repeat constructor; lia|]. split; [reflexivity|].
  apply fsencode_fsdecode. repeat constructor; lia.
Defined.








Lemma main_size_readonly_witness :
  main ascii_lower some_printable ideal_store ideal_remove
    {| verbose := 0; size := true; clear_first := false; prefix := lit "user.";
       writer_args := default_args |} StdinTty [(lit "user.k", [195; 169])]
  = ([(lit "user.k", [195; 169])], PrintedSize 7) /\
  exists r, get_xattrs_size ideal_store [(lit "user.k", [195; 169])]
            = ([(lit "user.k", [195; 169])], r) /\
    main ascii_lower some_printable ideal_store ideal_remove
      {| verbose := 0; size := true; clear_first := false; prefix := lit "user.";
         writer_args := default_args |} StdinTty [(lit "user.k", [195; 169])]
    = ([(lit "user.k", [195; 169])],
       match r with Ok n => PrintedSize n | Raise e => Raised (PyExn e) end).
Proof.
  split; [reflexivity|].
  apply main_size_readonly. reflexivity.
Defined.

Lemma main_verbose_show_json_witness :
  main ascii_lower some_printable ideal_store ideal_remove
    {| verbose := 5; size := false; clear_first := true; prefix := lit "user.";
       writer_args := default_args |} (Loaded (JObj [(lit "k", JStr (lit "v"))])) [([107], [118])]
  = ([([107], [118])], Raised KeyError) /\
  (forall items,
     main ascii_lower some_printable ideal_store ideal_remove
       {| verbose := 5; size := false; clear_first := true; prefix := lit "user.";
          writer_args := default_args |} (Loaded (JObj items)) [([107], [118])]
     = ([([107], [118])], Raised KeyError)) /\
  (forall x rest, (forall items, x <> JObj items) ->
     main ascii_lower some_printable ideal_store ideal_remove
       {| verbose := 5; size := false; clear_first := true; prefix := lit "user.";
          writer_args := default_args |} (Loaded (JArr (x :: rest))) [([107], [118])]
     = ([([107], [118])], Raised (PyExn AttributeError))).
Proof.
  split; [reflexivity|].
  apply (main_verbose_show_json ascii_lower some_printable ideal_store ideal_remove
           {| verbose := 5; size := false; clear_first := true; prefix := lit "user.";
              writer_args := default_args |} [([107], [118])]); [reflexivity | cbn; lia].
Defined.



Lemma convert_bytes_none_iff_witness :
  convert_bytes (1024 ^ 5) = Returned None /\
  exists r, convert_bytes (1024 ^ 5) = Returned r /\ (r = None <-> 1024 ^ 5 <= 1024 ^ 5).
Proof.
  split; [reflexivity|].
  apply convert_bytes_none_iff. lia.
Defined.

Lemma convert_bytes_unit_witness :
  convert_bytes 2048 = Returned (Some (lit "2.0 kB")) /\
  convert_bytes 2048 =
  Returned (Some (fmt_3_1f 2048 (1024 ^ Z.of_nat 1) ++ [32] ++
                  nth 1 [lit "bytes"; lit "kB"; lit "MB"; lit "GB"; lit "TB"] [])).
Proof.
  split; [reflexivity|].
  apply convert_bytes_unit.
  - lia.
  - right. cbn. lia.
  - cbn. lia.
Defined.

Lemma convert_bytes_overflow_witness :
  convert_bytes (- 2 ^ 1100) = OverflowError.
Proof.
  apply convert_bytes_overflow. rewrite Z.abs_opp, Z.abs_eq by lia.
  apply Z.pow_le_mono_r; lia.
Defined.

End J2xMoreFacts.
